(** * ContentAppAttributeDelegate::Read and the Telink lighting AppConfig.h

    A shallow embedding of
    - examples/tv-app/android/java/ContentAppAttributeDelegate.cpp
    - examples/lighting-app/telink/include/AppConfig.h

    [Read] talks to a Java virtual machine through JNI.  The JNI
    environment is modelled as an explicit state (local reference table,
    outstanding UTF buffers, pending exception) and every JNI call and
    every log statement is recorded, in program order, in a trace. *)

From Stdlib Require Import ZArith List Lia Bool String Ascii.
Import ListNotations.

Open Scope Z_scope.

(** ** C++ values *)

Module Cxx.

(** [static_cast<jint>(x)] for an unsigned [x]: the value modulo 2^32,
    read as a two's complement signed 32-bit integer. *)
Definition static_cast_jint (x : Z) : Z :=
  (x + 2 ^ 31) mod 2 ^ 32 - 2 ^ 31.

(** The unsigned 32-bit reading of a [jint] (what Java gets with
    [Integer.toUnsignedLong]). *)
Definition as_uint32 (j : Z) : Z := j mod 2 ^ 32.

(** [std::string]: an owned sequence of bytes. *)
Definition std_string := list Z.

(** The bytes of a NUL-terminated character array, up to the first NUL:
    what the [std::string] constructor from a C string copies. *)
Fixpoint c_str_contents (buf : list Z) : std_string :=
  match buf with
  | [] => []
  | b :: rest => if b =? 0 then [] else b :: c_str_contents rest
  end.

(** A string literal of the source as bytes. *)
Definition bytes_of (s : string) : std_string :=
  map (fun a => Z.of_N (N_of_ascii a)) (list_ascii_of_string s).

End Cxx.

(** ** The JNI environment *)

Module Jni.

(** A Java [char]: one UTF-16 code unit. *)
Definition jchar := Z.

(** The contents of a [java.lang.String]. *)
Definition JavaString := list jchar.

Inductive jobject :=
| NULL
| LocalRef (n : nat)
| GlobalRef (n : nat).

Definition jmethodID := nat.

(** A pointer to a C string: [None] is [nullptr]. *)
Definition pointer := option nat.

(** What running a Java method does, as seen from native code: it
    throws, or it returns a [String] reference, which may be [null]. *)
Inductive JavaResult :=
| Throws
| Returns (v : option JavaString).

(** The host: the Java methods reachable through a reference and a
    method id, applied to [jint] arguments. *)
Definition JavaVM := jobject -> jmethodID -> list Z -> JavaResult.

Record JNIEnv := mkEnv {
  localRefs : list (nat * JavaString);
  utfChars : list (nat * list Z);
  pendingException : bool
}.

(** Modified UTF-8, the encoding of [GetStringUTFChars]: U+0000 takes two
    bytes, so the encoded text never contains a NUL byte. *)
Definition utf8_of_jchar (c : jchar) : list Z :=
  if (1 <=? c) && (c <=? 0x7F) then [c]
  else if c <=? 0x7FF then
    [Z.lor 0xC0 (Z.land (Z.shiftr c 6) 0x1F);
     Z.lor 0x80 (Z.land c 0x3F)]
  else
    [Z.lor 0xE0 (Z.land (Z.shiftr c 12) 0x0F);
     Z.lor 0x80 (Z.land (Z.shiftr c 6) 0x3F);
     Z.lor 0x80 (Z.land c 0x3F)].

Definition modified_utf8 (s : JavaString) : list Z :=
  flat_map utf8_of_jchar s.

(** A Java string holding the characters of an ASCII literal. *)
Definition java_string (s : string) : JavaString := Cxx.bytes_of s.

(** Tables indexed by a handle. *)
Section Table.

Context {A : Type}.

Fixpoint lookup (k : nat) (t : list (nat * A)) : option A :=
  match t with
  | [] => None
  | (k', v) :: rest => if Nat.eqb k' k then Some v else lookup k rest
  end.

Definition remove (k : nat) (t : list (nat * A)) : list (nat * A) :=
  filter (fun e => negb (Nat.eqb (fst e) k)) t.

(** A handle that is not in the table. *)
Definition fresh (t : list (nat * A)) : nat :=
  S (list_max (map fst t)).

End Table.

End Jni.

(** ** Diagnostics and the trace *)

Inductive LogLevel := Progress | Error.

(** An argument of a log statement, as it is printed: an integer, or the
    text found at a [%s] pointer ([None] when the pointer does not point
    to a live buffer). *)
Inductive LogArg :=
| ArgInt (z : Z)
| ArgText (s : option Cxx.std_string).

Inductive Event :=
| EvGetEnvForCurrentThread
| EvCallObjectMethod (obj : Jni.jobject) (m : Jni.jmethodID) (args : list Z)
| EvExceptionCheck
| EvExceptionDescribe
| EvExceptionClear
| EvGetStringUTFChars (s : Jni.jobject)
| EvReleaseStringUTFChars (s : Jni.jobject) (chars : Jni.pointer)
| EvDeleteLocalRef (r : Jni.jobject)
| ChipLog (level : LogLevel) (fmt : string) (args : list LogArg).

(** ** Native code running against a JNI environment

    A computation takes the environment and yields a value or undefined
    behaviour, the environment it leaves, and the events it caused. *)

Inductive Result (A : Type) :=
| Value (a : A)
| Undefined.
Arguments Value {A} a.
Arguments Undefined {A}.

Record Run (A : Type) := mkRun {
  result : Result A;
  final : Jni.JNIEnv;
  trace : list Event
}.
Arguments mkRun {A}.
Arguments result {A}.
Arguments final {A}.
Arguments trace {A}.

Definition Native (A : Type) := Jni.JNIEnv -> Run A.

Definition ret {A} (a : A) : Native A :=
  fun e => mkRun (Value a) e [].

(** A run that comes after the events [t]. *)
Definition after {A} (t : list Event) (r : Run A) : Run A :=
  mkRun (result r) (final r) (t ++ trace r).

(** Sequencing: undefined behaviour ends the run. *)
Definition bind {A B} (c : Native A) (k : A -> Native B) : Native B :=
  fun e =>
    match c e with
    | mkRun (Value a) e' t => after t (k a e')
    | mkRun Undefined e' t => mkRun Undefined e' t
    end.

Declare Scope native_scope.
Delimit Scope native_scope with native.
Notation "x <- c ;; k" := (bind c (fun x => k))
  (at level 61, c at next level, right associativity) : native_scope.
Notation "c ;; k" := (bind c (fun _ => k))
  (at level 61, right associativity) : native_scope.
Open Scope native_scope.

(** One step: an event, a result and a new environment. *)
Definition step {A} (ev : Event) (r : Result A) (e' : Jni.JNIEnv) : Run A :=
  mkRun r e' [ev].

(** ** JNI functions *)

Section JNI.

Variable vm : Jni.JavaVM.

(** Modelled from the spec: [JniReferences::GetEnvForCurrentThread] (not
    part of the two files) hands out the per-thread execution context of
    the foreign runtime; the environment is threaded implicitly. *)
Definition GetEnvForCurrentThread : Native unit :=
  fun e => step EvGetEnvForCurrentThread (Value tt) e.

(** [env->CallObjectMethod(obj, methodID, ...)]: a thrown exception
    becomes pending and the call yields [NULL]; a returned object gets a
    new entry in the local reference table. *)
Definition CallObjectMethod (obj : Jni.jobject) (m : Jni.jmethodID)
    (args : list Z) : Native Jni.jobject :=
  fun e =>
    match vm obj m args with
    | Jni.Throws =>
        step (EvCallObjectMethod obj m args) (Value Jni.NULL)
          (Jni.mkEnv (Jni.localRefs e) (Jni.utfChars e) true)
    | Jni.Returns None =>
        step (EvCallObjectMethod obj m args) (Value Jni.NULL) e
    | Jni.Returns (Some s) =>
        let r := Jni.fresh (Jni.localRefs e) in
        step (EvCallObjectMethod obj m args) (Value (Jni.LocalRef r))
          (Jni.mkEnv ((r, s) :: Jni.localRefs e) (Jni.utfChars e)
             (Jni.pendingException e))
    end.

Definition ExceptionCheck : Native bool :=
  fun e => step EvExceptionCheck (Value (Jni.pendingException e)) e.

Definition ExceptionDescribe : Native unit :=
  fun e => step EvExceptionDescribe (Value tt) e.

Definition ExceptionClear : Native unit :=
  fun e =>
    step EvExceptionClear (Value tt)
      (Jni.mkEnv (Jni.localRefs e) (Jni.utfChars e) false).

(** [env->GetStringUTFChars(string, 0)]: a new NUL-terminated buffer with
    the modified UTF-8 bytes of the string.  For a [NULL] string no buffer
    is made and the null pointer comes back; a reference that is not a
    live local reference is undefined behaviour. *)
Definition GetStringUTFChars (str : Jni.jobject) : Native Jni.pointer :=
  fun e =>
    match str with
    | Jni.NULL => step (EvGetStringUTFChars str) (Value None) e
    | Jni.LocalRef r =>
        match Jni.lookup r (Jni.localRefs e) with
        | Some s =>
            let p := Jni.fresh (Jni.utfChars e) in
            step (EvGetStringUTFChars str) (Value (Some p))
              (Jni.mkEnv (Jni.localRefs e)
                 ((p, Jni.modified_utf8 s ++ [0]) :: Jni.utfChars e)
                 (Jni.pendingException e))
        | None => step (EvGetStringUTFChars str) Undefined e
        end
    | Jni.GlobalRef _ => step (EvGetStringUTFChars str) Undefined e
    end.

Definition ReleaseStringUTFChars (str : Jni.jobject) (chars : Jni.pointer)
    : Native unit :=
  fun e =>
    match chars with
    | Some p =>
        step (EvReleaseStringUTFChars str chars) (Value tt)
          (Jni.mkEnv (Jni.localRefs e) (Jni.remove p (Jni.utfChars e))
             (Jni.pendingException e))
    | None => step (EvReleaseStringUTFChars str chars) (Value tt) e
    end.

Definition DeleteLocalRef (ref : Jni.jobject) : Native unit :=
  fun e =>
    match ref with
    | Jni.LocalRef r =>
        step (EvDeleteLocalRef ref) (Value tt)
          (Jni.mkEnv (Jni.remove r (Jni.localRefs e)) (Jni.utfChars e)
             (Jni.pendingException e))
    | _ => step (EvDeleteLocalRef ref) (Value tt) e
    end.

(** The text a pointer leads to: the C string in a live buffer, nothing
    for [nullptr] or a released buffer. *)
Definition text_at (e : Jni.JNIEnv) (p : Jni.pointer) : option Cxx.std_string :=
  match p with
  | Some a => option_map Cxx.c_str_contents (Jni.lookup a (Jni.utfChars e))
  | None => None
  end.

(** [std::string retStr(respStr)]: copies the C string; constructing from
    a pointer with no C string behind it is undefined behaviour. *)
Definition std_string_of (p : Jni.pointer) : Native Cxx.std_string :=
  fun e =>
    match text_at e p with
    | Some s => mkRun (Value s) e []
    | None => mkRun Undefined e []
    end.

(** Variadic arguments of a log statement, before printing. *)
Inductive VarArg :=
| va_int (z : Z)
| va_str (p : Jni.pointer).

Definition printed (e : Jni.JNIEnv) (a : VarArg) : LogArg :=
  match a with
  | va_int z => ArgInt z
  | va_str p => ArgText (text_at e p)
  end.

(** Printing an argument reads it: a [%s] argument must point to a live
    C string, as for [std_string_of]. *)
Definition readable (e : Jni.JNIEnv) (a : VarArg) : bool :=
  match a with
  | va_int _ => true
  | va_str p =>
      match text_at e p with
      | Some _ => true
      | None => false
      end
  end.

(** Modelled from the spec: the logging macros [ChipLogProgress] and
    [ChipLogError] (not part of the two files) emit one diagnostic line
    at progress, respectively error, level.  A [%s] argument with no live
    C string behind it ([nullptr], or a buffer that was released) makes
    the statement undefined behaviour. *)
Definition ChipLogProgress (fmt : string) (args : list VarArg) : Native unit :=
  fun e =>
    step (ChipLog Progress fmt (map (printed e) args))
      (if forallb (readable e) args then Value tt else Undefined) e.

Definition ChipLogError (fmt : string) (args : list VarArg) : Native unit :=
  fun e =>
    step (ChipLog Error fmt (map (printed e) args))
      (if forallb (readable e) args then Value tt else Undefined) e.

End JNI.

(** ** ContentAppAttributeDelegate *)

(** [chip::app::ConcreteReadAttributePath], the three fields [Read] uses. *)
Record ConcreteReadAttributePath := mkPath {
  mEndpointId : Z;
  mClusterId : Z;
  mAttributeId : Z
}.

(** Modelled from the spec: the identifier types are declared outside the
    two files.  Endpoint and cluster identifiers are 16-bit unsigned
    integers, attribute identifiers are 32-bit unsigned integers. *)
Definition EndpointId_bits : Z := 16.
Definition ClusterId_bits : Z := 16.
Definition AttributeId_bits : Z := 32.

Definition well_typed (p : ConcreteReadAttributePath) : Prop :=
  0 <= mEndpointId p < 2 ^ EndpointId_bits /\
  0 <= mClusterId p < 2 ^ ClusterId_bits /\
  0 <= mAttributeId p < 2 ^ AttributeId_bits.

(** All three identifiers are unsigned and take at most 32 bits; this
    follows from [well_typed]. *)
Definition fits_uint32 (p : ConcreteReadAttributePath) : Prop :=
  0 <= mEndpointId p < 2 ^ 32 /\
  0 <= mClusterId p < 2 ^ 32 /\
  0 <= mAttributeId p < 2 ^ 32.

Record ContentAppAttributeDelegate := mkDelegate {
  mContentAppEndpointManager : Jni.jobject;
  mReadAttributeMethod : Jni.jmethodID
}.

Section Read.

(** [FIXED_ENDPOINT_COUNT] comes from the generated endpoint_config.h. *)
Variable FIXED_ENDPOINT_COUNT : Z.
Variable vm : Jni.JavaVM.

Definition Read (this : ContentAppAttributeDelegate)
    (aPath : ConcreteReadAttributePath) : Native Cxx.std_string :=
  if mEndpointId aPath <? FIXED_ENDPOINT_COUNT then
    ret (Cxx.bytes_of "")
  else
    GetEnvForCurrentThread ;;
    ChipLogProgress
      "ContentAppAttributeDelegate::Read being called for endpoint %d cluster %d attribute %d"
      [va_int (mEndpointId aPath); va_int (mClusterId aPath);
       va_int (mAttributeId aPath)] ;;
    resp <- CallObjectMethod vm (mContentAppEndpointManager this)
              (mReadAttributeMethod this)
              [Cxx.static_cast_jint (mEndpointId aPath);
               Cxx.static_cast_jint (mClusterId aPath);
               Cxx.static_cast_jint (mAttributeId aPath)] ;;
    exc <- ExceptionCheck ;;
    if exc : bool then
      ChipLogError "Java exception in ContentAppAttributeDelegate::Read" [] ;;
      ExceptionDescribe ;;
      ExceptionClear ;;
      ret (Cxx.bytes_of "")
    else
      respStr <- GetStringUTFChars resp ;;
      retStr <- std_string_of respStr ;;
      ReleaseStringUTFChars resp respStr ;;
      DeleteLocalRef resp ;;
      ChipLogProgress "ContentAppAttributeDelegate::Read got response %s"
        [va_str respStr] ;;
      ret retStr.

End Read.

(** ** Vocabulary for what [Read] does *)

(** The three [jint] arguments handed to the host for a path. *)
Definition jargs (p : ConcreteReadAttributePath) : list Z :=
  [Cxx.static_cast_jint (mEndpointId p);
   Cxx.static_cast_jint (mClusterId p);
   Cxx.static_cast_jint (mAttributeId p)].

(** The host invocation of [Read] for a path. *)
Definition host_call (this : ContentAppAttributeDelegate)
    (p : ConcreteReadAttributePath) : Event :=
  EvCallObjectMethod (mContentAppEndpointManager this)
    (mReadAttributeMethod this) (jargs p).

(** How the host answers that invocation. *)
Definition reply (vm : Jni.JavaVM) (this : ContentAppAttributeDelegate)
    (p : ConcreteReadAttributePath) : Jni.JavaResult :=
  vm (mContentAppEndpointManager this) (mReadAttributeMethod this) (jargs p).

(** The progress line that names the triple. *)
Definition called_line (p : ConcreteReadAttributePath) : Event :=
  ChipLog Progress
    "ContentAppAttributeDelegate::Read being called for endpoint %d cluster %d attribute %d"
    [ArgInt (mEndpointId p); ArgInt (mClusterId p); ArgInt (mAttributeId p)].

(** The error line of the exception branch. *)
Definition exception_line : Event :=
  ChipLog Error "Java exception in ContentAppAttributeDelegate::Read" [].

(** The progress line that reports the response. *)
Definition response_line (text : option Cxx.std_string) : Event :=
  ChipLog Progress "ContentAppAttributeDelegate::Read got response %s"
    [ArgText text].

(** ** Observations on a trace *)

Definition is_log (ev : Event) : bool :=
  match ev with
  | ChipLog _ _ _ => true
  | _ => false
  end.

Definition has_level (l : LogLevel) (ev : Event) : bool :=
  match ev, l with
  | ChipLog Progress _ _, Progress => true
  | ChipLog Error _ _, Error => true
  | _, _ => false
  end.

Definition is_host_call (ev : Event) : bool :=
  match ev with
  | EvCallObjectMethod _ _ _ => true
  | _ => false
  end.

(** Everything that touches the foreign runtime: all events but the log
    lines. *)
Definition foreign_calls (t : list Event) : list Event :=
  filter (fun ev => negb (is_log ev)) t.

(** The invocations of a host method. *)
Definition host_calls (t : list Event) : list Event :=
  filter is_host_call t.

Definition log_lines (t : list Event) : list Event :=
  filter is_log t.

Definition log_lines_at (l : LogLevel) (t : list Event) : list Event :=
  filter (has_level l) t.

(** ** AppConfig.h of the Telink lighting example *)

Module AppConfig.

(** The replacement lists that occur in the header. *)
Inductive Replacement :=
| Int (z : Z)
| DEVICE_DT_GET_NODELABEL (label : string)
| PWM_DT_SPEC_GET_ALIAS (alias : string).

(** The directives that occur in the header. *)
Inductive Line :=
| define (name : string) (body : Replacement)
| if_ (cond : string)
| endif.

Definition Macros := list (string * Replacement).

Fixpoint macro (name : string) (m : Macros) : option Replacement :=
  match m with
  | [] => None
  | (n, b) :: rest => if String.eqb n name then Some b else macro name rest
  end.

(** The controlling expression of [#if NAME]: an identifier that is not
    a macro counts as 0. *)
Definition holds (cond : string) (m : Macros) : bool :=
  match macro cond m with
  | Some (Int z) => negb (z =? 0)
  | _ => false
  end.

(** The preprocessor on these directives: [skip] counts the open
    conditionals of a group that is being skipped. *)
Fixpoint preprocess (src : list Line) (skip : nat) (m : Macros) : Macros :=
  match src with
  | [] => m
  | define n b :: rest =>
      match skip with
      | O => preprocess rest skip (m ++ [(n, b)])
      | S _ => preprocess rest skip m
      end
  | if_ c :: rest =>
      match skip with
      | O => if holds c m then preprocess rest O m else preprocess rest 1%nat m
      | S k => preprocess rest (S (S k)) m
      end
  | endif :: rest => preprocess rest (Nat.pred skip) m
  end.

(** The header, as a function of the value written for [USE_RGB_PWM]. *)
Definition AppConfig_h_with (USE_RGB_PWM : Z) : list Line :=
  [ define "BUTTON_PORT" (DEVICE_DT_GET_NODELABEL "gpioc");
    define "BUTTON_PIN_1" (Int 2);
    define "BUTTON_PIN_3" (Int 3);
    define "BUTTON_PIN_4" (Int 1);
    define "BUTTON_PIN_2" (Int 0);
    define "SYSTEM_STATE_LED_PORT" (DEVICE_DT_GET_NODELABEL "gpiob");
    define "SYSTEM_STATE_LED_PIN" (Int 7);
    define "USE_RGB_PWM" (Int USE_RGB_PWM);
    define "LIGHTING_PWM_SPEC_BLUE" (PWM_DT_SPEC_GET_ALIAS "pwm_led0");
    if_ "USE_RGB_PWM";
    define "LIGHTING_PWM_SPEC_GREEN" (PWM_DT_SPEC_GET_ALIAS "pwm_led1");
    define "LIGHTING_PWM_SPEC_RED" (PWM_DT_SPEC_GET_ALIAS "pwm_led2");
    endif ].

(** The header as it is in the tree: [#define USE_RGB_PWM 0]. *)
Definition AppConfig_h : list Line := AppConfig_h_with 0.

Definition bindings (USE_RGB_PWM : Z) : Macros :=
  preprocess (AppConfig_h_with USE_RGB_PWM) O [].

Definition has_suffix (suffix s : string) : bool :=
  String.eqb
    (substring (String.length s - String.length suffix)
       (String.length suffix) s)
    suffix.

(** The integer macros whose name satisfies [sel], in definition order. *)
Fixpoint pins (sel : string -> bool) (m : Macros) : list (string * Z) :=
  match m with
  | [] => []
  | (n, Int z) :: rest =>
      if sel n then (n, z) :: pins sel rest else pins sel rest
  | _ :: rest => pins sel rest
  end.

Definition button_pins (m : Macros) : list (string * Z) :=
  pins (String.prefix "BUTTON_PIN_") m.

Definition led_pins (m : Macros) : list (string * Z) :=
  pins (has_suffix "_LED_PIN") m.

(** The PWM specifications, with the devicetree alias each refers to. *)
Fixpoint pwm_channels (m : Macros) : list (string * string) :=
  match m with
  | [] => []
  | (n, PWM_DT_SPEC_GET_ALIAS a) :: rest => (n, a) :: pwm_channels rest
  | _ :: rest => pwm_channels rest
  end.

(** Pin numbers are contiguous when they fill the range that starts at
    the smallest of them and has as many numbers as there are pins. *)
Definition contiguous (ps : list Z) : bool :=
  match ps with
  | [] => true
  | p :: _ =>
      let lo := fold_right Z.min p ps in
      forallb (fun i => existsb (Z.eqb (lo + Z.of_nat i)) ps)
        (seq 0 (List.length ps))
  end.

End AppConfig.

(** ** Scenarios

    Concrete inputs for the properties below: five fixed endpoints, a
    delegate holding a global reference and a method id, a thread with
    nothing outstanding, and hosts with a prescribed answer. *)

Module Scenario.

Definition fixed_endpoints : Z := 5.

Definition delegate : ContentAppAttributeDelegate :=
  mkDelegate (Jni.GlobalRef 1) 1%nat.

Definition idle : Jni.JNIEnv := Jni.mkEnv [] [] false.

(** A thread that already holds one local reference and one UTF buffer. *)
Definition busy : Jni.JNIEnv :=
  Jni.mkEnv [(4%nat, Jni.java_string "held")]
    [(2%nat, Cxx.bytes_of "pinned" ++ [0])] false.


(** A host that answers every call the same way. *)
Definition host_always (r : Jni.JavaResult) : Jni.JavaVM :=
  fun _ _ _ => r.

(** A host that answers [r] to exactly the arguments [expected] and
    throws on anything else. *)
Definition host_expecting (expected : list Z) (r : Jni.JavaResult)
    : Jni.JavaVM :=
  fun _ _ args =>
    if list_eq_dec Z.eq_dec args expected then r else Jni.Throws.

Definition text (s : string) : Jni.JavaResult :=
  Jni.Returns (Some (Jni.java_string s)).

End Scenario.

(** * Properties *)

(** ** Conversion to [jint] *)

Lemma static_cast_jint_range (x : Z) :
  - 2 ^ 31 <= Cxx.static_cast_jint x < 2 ^ 31.
Proof.
  unfold Cxx.static_cast_jint.
  pose proof (Z.mod_pos_bound (x + 2 ^ 31) (2 ^ 32)). lia.
Qed.

Lemma static_cast_jint_mod (x : Z) :
  Cxx.as_uint32 (Cxx.static_cast_jint x) = x mod 2 ^ 32.
Proof.
  unfold Cxx.as_uint32, Cxx.static_cast_jint.
  rewrite Zminus_mod_idemp_l. f_equal. lia.
Qed.

Lemma static_cast_jint_unsigned (x : Z) :
  0 <= x < 2 ^ 32 -> Cxx.as_uint32 (Cxx.static_cast_jint x) = x.
Proof.
  intros H. rewrite static_cast_jint_mod. apply Z.mod_small. exact H.
Qed.

Lemma static_cast_jint_small (x : Z) :
  0 <= x < 2 ^ 31 -> Cxx.static_cast_jint x = x.
Proof.
  intros H. unfold Cxx.static_cast_jint.
  rewrite Z.mod_small by lia. lia.
Qed.

Lemma static_cast_jint_high (x : Z) :
  2 ^ 31 <= x < 2 ^ 32 -> Cxx.static_cast_jint x = x - 2 ^ 32.
Proof.
  intros H. unfold Cxx.static_cast_jint.
  replace (x + 2 ^ 31) with (x - 2 ^ 31 + 1 * 2 ^ 32) by lia.
  rewrite Z.mod_add by lia. rewrite Z.mod_small by lia. lia.
Qed.

Lemma static_cast_jint_bits (x i : Z) :
  0 <= i < 32 ->
  Z.testbit (Cxx.static_cast_jint x) i = Z.testbit x i.
Proof.
  intros Hi.
  rewrite <- (Z.mod_pow2_bits_low (Cxx.static_cast_jint x) 32 i) by lia.
  rewrite <- (Z.mod_pow2_bits_low x 32 i) by lia.
  f_equal. apply static_cast_jint_mod.
Qed.

(** ** Handle tables *)

Lemma remove_above {A : Type} (k : nat) (t : list (nat * A)) :
  Forall (fun e => (fst e < k)%nat) t -> Jni.remove k t = t.
Proof.
  unfold Jni.remove.
  induction 1 as [| [k' v] t Hk _ IH]; cbn [filter fst] in *.
  - reflexivity.
  - destruct (Nat.eqb_spec k' k) as [-> | _]; cbn [negb].
    + lia.
    + rewrite IH. reflexivity.
Qed.

Lemma fresh_above {A : Type} (t : list (nat * A)) :
  Forall (fun e => (fst e < Jni.fresh t)%nat) t.
Proof.
  unfold Jni.fresh.
  assert (H : Forall (fun k => (k <= list_max (map fst t))%nat) (map fst t))
    by (apply list_max_le; lia).
  rewrite Forall_map in H.
  apply Forall_impl with (2 := H). intros e He. lia.
Qed.

Lemma remove_fresh {A : Type} (t : list (nat * A)) (v : A) :
  Jni.remove (Jni.fresh t) ((Jni.fresh t, v) :: t) = t.
Proof.
  unfold Jni.remove. simpl. rewrite Nat.eqb_refl. simpl.
  apply remove_above, fresh_above.
Qed.

Lemma lookup_head {A : Type} (k : nat) (v : A) (t : list (nat * A)) :
  Jni.lookup k ((k, v) :: t) = Some v.
Proof. simpl. rewrite Nat.eqb_refl. reflexivity. Qed.

(** ** Modified UTF-8 and C strings *)

Lemma lor_nonzero (a b : Z) : a <> 0 -> Z.lor a b <> 0.
Proof. intros Ha H. apply Z.lor_eq_0_iff in H. tauto. Qed.

Lemma utf8_of_jchar_no_NUL (c : Jni.jchar) :
  Forall (fun b => b <> 0) (Jni.utf8_of_jchar c).
Proof.
  unfold Jni.utf8_of_jchar.
  destruct ((1 <=? c) && (c <=? 127)) eqn:Hascii.
  - apply andb_true_iff in Hascii. destruct Hascii as [H1 _].
    apply Z.leb_le in H1. constructor; [lia | constructor].
  - destruct (c <=? 2047);
      repeat (constructor; [apply lor_nonzero; discriminate |]);
      constructor.
Qed.

Lemma modified_utf8_no_NUL (s : Jni.JavaString) :
  Forall (fun b => b <> 0) (Jni.modified_utf8 s).
Proof.
  unfold Jni.modified_utf8.
  induction s as [| c s IH]; simpl.
  - constructor.
  - apply Forall_app. split; [apply utf8_of_jchar_no_NUL | exact IH].
Qed.

Lemma c_str_contents_terminated (l rest : list Z) :
  Forall (fun b => b <> 0) l ->
  Cxx.c_str_contents (l ++ 0 :: rest) = l.
Proof.
  induction 1 as [| b l Hb _ IH]; simpl.
  - reflexivity.
  - destruct (Z.eqb_spec b 0); [contradiction |]. rewrite IH. reflexivity.
Qed.

Lemma modified_utf8_ascii (s : Jni.JavaString) :
  Forall (fun c => 1 <= c <= 127) s -> Jni.modified_utf8 s = s.
Proof.
  unfold Jni.modified_utf8.
  induction 1 as [| c s Hc _ IH]; cbn [flat_map].
  - reflexivity.
  - rewrite IH. unfold Jni.utf8_of_jchar.
    destruct (Z.leb_spec 1 c); [| lia].
    destruct (Z.leb_spec c 127); [| lia].
    reflexivity.
Qed.

(** ** Single steps *)

Lemma bind_step {A B : Type} (c : Native A) (k : A -> Native B)
    (e e' : Jni.JNIEnv) (a : A) (t : list Event) :
  c e = mkRun (Value a) e' t -> bind c k e = after t (k a e').
Proof. unfold bind. intros ->. reflexivity. Qed.

Lemma GetStringUTFChars_local (r : nat) (s : Jni.JavaString)
    (refs : list (nat * Jni.JavaString)) (bufs : list (nat * list Z))
    (pending : bool) :
  GetStringUTFChars (Jni.LocalRef r) (Jni.mkEnv ((r, s) :: refs) bufs pending) =
  mkRun (Value (Some (Jni.fresh bufs)))
    (Jni.mkEnv ((r, s) :: refs)
       ((Jni.fresh bufs, Jni.modified_utf8 s ++ [0]) :: bufs) pending)
    [EvGetStringUTFChars (Jni.LocalRef r)].
Proof.
  unfold GetStringUTFChars. cbn [Jni.localRefs].
  rewrite lookup_head. reflexivity.
Qed.

Lemma std_string_of_buffer (a : nat) (s : Jni.JavaString)
    (refs : list (nat * Jni.JavaString)) (bufs : list (nat * list Z))
    (pending : bool) :
  std_string_of (Some a)
    (Jni.mkEnv refs ((a, Jni.modified_utf8 s ++ [0]) :: bufs) pending) =
  mkRun (Value (Jni.modified_utf8 s))
    (Jni.mkEnv refs ((a, Jni.modified_utf8 s ++ [0]) :: bufs) pending) [].
Proof.
  unfold std_string_of, text_at. cbn [Jni.utfChars].
  rewrite lookup_head. cbn [option_map].
  rewrite c_str_contents_terminated by apply modified_utf8_no_NUL.
  reflexivity.
Qed.

Lemma lookup_above {A : Type} (k : nat) (t : list (nat * A)) :
  Forall (fun e => (fst e < k)%nat) t -> Jni.lookup k t = None.
Proof.
  induction 1 as [| [k' v] t Hk _ IH]; cbn [Jni.lookup fst] in *.
  - reflexivity.
  - destruct (Nat.eqb_spec k' k); [lia | exact IH].
Qed.

Lemma lookup_fresh {A : Type} (t : list (nat * A)) :
  Jni.lookup (Jni.fresh t) t = None.
Proof. apply lookup_above, fresh_above. Qed.

(** ** The four ways through [Read] *)

Section Paths.

Variable FIXED_ENDPOINT_COUNT : Z.
Variable vm : Jni.JavaVM.
Variable this : ContentAppAttributeDelegate.
Variable p : ConcreteReadAttributePath.
Variable e : Jni.JNIEnv.

Ltac enter_dynamic H :=
  unfold Read;
  rewrite (proj2 (Z.ltb_ge _ _) H);
  unfold reply, jargs in *;
  unfold CallObjectMethod.

#[local] Arguments Jni.fresh : simpl never.
#[local] Arguments Jni.lookup : simpl never.
#[local] Arguments Jni.remove : simpl never.
#[local] Arguments Jni.modified_utf8 : simpl never.
#[local] Arguments Cxx.c_str_contents : simpl never.
#[local] Arguments Cxx.static_cast_jint : simpl never.

(** Static endpoint: nothing happens. *)
Lemma Read_static :
  mEndpointId p < FIXED_ENDPOINT_COUNT ->
  Read FIXED_ENDPOINT_COUNT vm this p e = mkRun (Value []) e [].
Proof.
  intros H. unfold Read. rewrite (proj2 (Z.ltb_lt _ _) H). reflexivity.
Qed.

(** The host throws. *)
Lemma Read_throws :
  FIXED_ENDPOINT_COUNT <= mEndpointId p ->
  reply vm this p = Jni.Throws ->
  Read FIXED_ENDPOINT_COUNT vm this p e =
  mkRun (Value [])
    (Jni.mkEnv (Jni.localRefs e) (Jni.utfChars e) false)
    [EvGetEnvForCurrentThread; called_line p; host_call this p;
     EvExceptionCheck; exception_line; EvExceptionDescribe;
     EvExceptionClear].
Proof.
  intros H Hr. enter_dynamic H. rewrite Hr. reflexivity.
Qed.

(** An exception was already pending when the host returned. *)
Lemma Read_pending (v : option Jni.JavaString) :
  FIXED_ENDPOINT_COUNT <= mEndpointId p ->
  Jni.pendingException e = true ->
  reply vm this p = Jni.Returns v ->
  Read FIXED_ENDPOINT_COUNT vm this p e =
  mkRun (Value [])
    (Jni.mkEnv
       match v with
       | Some s => (Jni.fresh (Jni.localRefs e), s) :: Jni.localRefs e
       | None => Jni.localRefs e
       end
       (Jni.utfChars e) false)
    [EvGetEnvForCurrentThread; called_line p; host_call this p;
     EvExceptionCheck; exception_line; EvExceptionDescribe;
     EvExceptionClear].
Proof.
  intros H He Hr. enter_dynamic H. rewrite Hr.
  destruct v as [s |]; cbn; rewrite He; reflexivity.
Qed.

(** The host returns [null]: the null pointer reaches the [std::string]
    constructor. *)
Lemma Read_null :
  FIXED_ENDPOINT_COUNT <= mEndpointId p ->
  Jni.pendingException e = false ->
  reply vm this p = Jni.Returns None ->
  Read FIXED_ENDPOINT_COUNT vm this p e =
  mkRun Undefined e
    [EvGetEnvForCurrentThread; called_line p; host_call this p;
     EvExceptionCheck; EvGetStringUTFChars Jni.NULL].
Proof.
  intros H He Hr. enter_dynamic H. rewrite Hr. cbn. rewrite He.
  reflexivity.
Qed.

(** The host returns a string: it is copied, the buffer is released and
    the reference deleted; then the released buffer is passed to the
    [%s] of the last log statement. *)
Lemma Read_text (s : Jni.JavaString) :
  FIXED_ENDPOINT_COUNT <= mEndpointId p ->
  Jni.pendingException e = false ->
  reply vm this p = Jni.Returns (Some s) ->
  Read FIXED_ENDPOINT_COUNT vm this p e =
  mkRun Undefined e
    [EvGetEnvForCurrentThread; called_line p; host_call this p;
     EvExceptionCheck;
     EvGetStringUTFChars (Jni.LocalRef (Jni.fresh (Jni.localRefs e)));
     EvReleaseStringUTFChars (Jni.LocalRef (Jni.fresh (Jni.localRefs e)))
       (Some (Jni.fresh (Jni.utfChars e)));
     EvDeleteLocalRef (Jni.LocalRef (Jni.fresh (Jni.localRefs e)));
     response_line None].
Proof.
  intros H He Hr. enter_dynamic H. rewrite Hr. cbn. rewrite He. cbn.
  rewrite (bind_step _ _ _ _ _ _ (GetStringUTFChars_local _ _ _ _ _)).
  rewrite (bind_step _ _ _ _ _ _ (std_string_of_buffer _ _ _ _ _)).
  cbn. rewrite !remove_fresh, !lookup_fresh. cbn.
  destruct e as [refs bufs pending]. cbn in He. subst pending.
  reflexivity.
Qed.

End Paths.

(** ** What every dynamic invocation does *)

Ltac by_paths N vm this p e H :=
  let Hr := fresh "Hr" in
  let He := fresh "He" in
  destruct (reply vm this p) as [| [? |]] eqn:Hr;
  [ rewrite (Read_throws N vm this p e H Hr)
  | destruct (Jni.pendingException e) eqn:He;
    [ rewrite (Read_pending N vm this p e _ H He Hr)
    | rewrite (Read_text N vm this p e _ H He Hr) ]
  | destruct (Jni.pendingException e) eqn:He;
    [ rewrite (Read_pending N vm this p e _ H He Hr)
    | rewrite (Read_null N vm this p e H He Hr) ] ].

Lemma Read_host_calls (N : Z) (vm : Jni.JavaVM)
    (this : ContentAppAttributeDelegate) (p : ConcreteReadAttributePath)
    (e : Jni.JNIEnv) :
  N <= mEndpointId p ->
  host_calls (trace (Read N vm this p e)) = [host_call this p].
Proof.
  intros H. by_paths N vm this p e H; reflexivity.
Qed.

Lemma Read_starts (N : Z) (vm : Jni.JavaVM)
    (this : ContentAppAttributeDelegate) (p : ConcreteReadAttributePath)
    (e : Jni.JNIEnv) :
  N <= mEndpointId p ->
  exists rest,
    trace (Read N vm this p e) =
    EvGetEnvForCurrentThread :: called_line p :: host_call this p ::
    EvExceptionCheck :: rest.
Proof.
  intros H. by_paths N vm this p e H; eexists; reflexivity.
Qed.

Lemma jint_faithful (x : Z) :
  0 <= x < 2 ^ 32 ->
  - 2 ^ 31 <= Cxx.static_cast_jint x < 2 ^ 31 /\
  Cxx.as_uint32 (Cxx.static_cast_jint x) = x /\
  forall i, 0 <= i < 32 ->
    Z.testbit (Cxx.static_cast_jint x) i = Z.testbit x i.
Proof.
  intros H. split; [apply static_cast_jint_range |].
  split; [apply static_cast_jint_unsigned; exact H |].
  intros i Hi. apply static_cast_jint_bits. exact Hi.
Qed.

Lemma well_typed_fits_uint32 (p : ConcreteReadAttributePath) :
  well_typed p -> fits_uint32 p.
Proof.
  unfold well_typed, fits_uint32, EndpointId_bits, ClusterId_bits,
    AttributeId_bits.
  lia.
Qed.

(** ** The claims about [Read] *)

(** C1. For every path whose endpoint identifier is strictly less than
    the fixed endpoint count, [Read] returns the empty string and touches
    the foreign runtime not at all: no host invocation, no acquisition of
    the execution context, no change of the JNI environment. *)
Theorem Read_static_is_local (N : Z) (vm : Jni.JavaVM)
    (this : ContentAppAttributeDelegate) (p : ConcreteReadAttributePath)
    (e : Jni.JNIEnv) :
  mEndpointId p < N ->
  result (Read N vm this p e) = Value (Cxx.bytes_of "") /\
  foreign_calls (trace (Read N vm this p e)) = [] /\
  final (Read N vm this p e) = e.
Proof.
  intros H. rewrite (Read_static N vm this p e H). repeat split.
Qed.

Lemma Read_static_is_local_witness :
  3 < Scenario.fixed_endpoints /\
  result (Read Scenario.fixed_endpoints
            (Scenario.host_always (Scenario.text "on")) Scenario.delegate
            (mkPath 3 0x0006 0x0000) Scenario.busy) = Value [] /\
  foreign_calls
    (trace (Read Scenario.fixed_endpoints
              (Scenario.host_always (Scenario.text "on")) Scenario.delegate
              (mkPath 3 0x0006 0x0000) Scenario.busy)) = [] /\
  final (Read Scenario.fixed_endpoints
           (Scenario.host_always (Scenario.text "on")) Scenario.delegate
           (mkPath 3 0x0006 0x0000) Scenario.busy) = Scenario.busy.
Proof.
  split; [reflexivity |].
  apply (Read_static_is_local Scenario.fixed_endpoints
           (Scenario.host_always (Scenario.text "on")) Scenario.delegate
           (mkPath 3 0x0006 0x0000) Scenario.busy).
  reflexivity.
Defined.

(** C2. For every path whose endpoint identifier is at least the fixed
    endpoint count (equality included), [Read] invokes the host exactly
    once, with the endpoint, cluster and attribute identifiers converted
    to signed 32-bit integers that keep the bit pattern: each argument is
    in the [jint] range, reads back as the identifier when taken as
    unsigned, and agrees with it on all 32 bits. *)
Theorem Read_dynamic_calls_host_once (N : Z) (vm : Jni.JavaVM)
    (this : ContentAppAttributeDelegate) (p : ConcreteReadAttributePath)
    (e : Jni.JNIEnv) :
  N <= mEndpointId p ->
  fits_uint32 p ->
  host_calls (trace (Read N vm this p e)) =
    [EvCallObjectMethod (mContentAppEndpointManager this)
       (mReadAttributeMethod this) (jargs p)] /\
  Forall2
    (fun id j =>
       - 2 ^ 31 <= j < 2 ^ 31 /\
       Cxx.as_uint32 j = id /\
       forall i, 0 <= i < 32 -> Z.testbit j i = Z.testbit id i)
    [mEndpointId p; mClusterId p; mAttributeId p] (jargs p).
Proof.
  intros H (He & Hc & Ha). split.
  - apply Read_host_calls. exact H.
  - unfold jargs.
    repeat (constructor; [apply jint_faithful; assumption |]). constructor.
Qed.

Lemma Read_dynamic_calls_host_once_witness :
  Scenario.fixed_endpoints <= mEndpointId (mkPath 5 0x050B 0xFFFD0000) /\
  fits_uint32 (mkPath 5 0x050B 0xFFFD0000) /\
  jargs (mkPath 5 0x050B 0xFFFD0000) = [5; 0x050B; -196608] /\
  Z.testbit (-196608) 31 = true /\
  host_calls
    (trace (Read Scenario.fixed_endpoints
              (Scenario.host_expecting [5; 0x050B; -196608] (Scenario.text "ok"))
              Scenario.delegate (mkPath 5 0x050B 0xFFFD0000) Scenario.idle)) =
    [EvCallObjectMethod (Jni.GlobalRef 1) 1%nat
       (jargs (mkPath 5 0x050B 0xFFFD0000))] /\
  Forall2
    (fun id j =>
       - 2 ^ 31 <= j < 2 ^ 31 /\
       Cxx.as_uint32 j = id /\
       forall i, 0 <= i < 32 -> Z.testbit j i = Z.testbit id i)
    [5; 0x050B; 0xFFFD0000] (jargs (mkPath 5 0x050B 0xFFFD0000)).
Proof.
  split; [vm_compute; discriminate |].
  split; [unfold fits_uint32; vm_compute; intuition discriminate |].
  split; [reflexivity |].
  split; [reflexivity |].
  apply (Read_dynamic_calls_host_once Scenario.fixed_endpoints
           (Scenario.host_expecting [5; 0x050B; -196608] (Scenario.text "ok"))
           Scenario.delegate (mkPath 5 0x050B 0xFFFD0000) Scenario.idle).
  - vm_compute. discriminate.
  - unfold fits_uint32. vm_compute. intuition discriminate.
Defined.

(** C3. On the dynamic path, when the exception check after the host call
    finds an exception (thrown by the host, or pending), [Read] logs one
    error line, describes and clears the exception as its last JNI
    action, leaves no exception pending, and returns the empty string as
    an ordinary value. *)
Theorem Read_exception_contained (N : Z) (vm : Jni.JavaVM)
    (this : ContentAppAttributeDelegate) (p : ConcreteReadAttributePath)
    (e : Jni.JNIEnv) :
  N <= mEndpointId p ->
  reply vm this p = Jni.Throws \/ Jni.pendingException e = true ->
  result (Read N vm this p e) = Value (Cxx.bytes_of "") /\
  Jni.pendingException (final (Read N vm this p e)) = false /\
  log_lines_at Error (trace (Read N vm this p e)) = [exception_line] /\
  trace (Read N vm this p e) =
    [EvGetEnvForCurrentThread; called_line p; host_call this p;
     EvExceptionCheck; exception_line; EvExceptionDescribe;
     EvExceptionClear].
Proof.
  intros H Hexc.
  destruct (reply vm this p) as [| v] eqn:Hr.
  - rewrite (Read_throws N vm this p e H Hr). repeat split.
  - destruct Hexc as [Hthrows | He]; [discriminate |].
    rewrite (Read_pending N vm this p e v H He Hr). repeat split.
Qed.

Lemma Read_exception_contained_witness :
  Scenario.fixed_endpoints <= mEndpointId (mkPath 9 0x050C 0x0003) /\
  result (Read Scenario.fixed_endpoints (Scenario.host_always Jni.Throws)
            Scenario.delegate (mkPath 9 0x050C 0x0003) Scenario.busy) =
    Value [] /\
  Jni.pendingException
    (final (Read Scenario.fixed_endpoints (Scenario.host_always Jni.Throws)
              Scenario.delegate (mkPath 9 0x050C 0x0003) Scenario.busy)) =
    false /\
  log_lines_at Error
    (trace (Read Scenario.fixed_endpoints (Scenario.host_always Jni.Throws)
              Scenario.delegate (mkPath 9 0x050C 0x0003) Scenario.busy)) =
    [exception_line] /\
  trace (Read Scenario.fixed_endpoints (Scenario.host_always Jni.Throws)
           Scenario.delegate (mkPath 9 0x050C 0x0003) Scenario.busy) =
    [EvGetEnvForCurrentThread; called_line (mkPath 9 0x050C 0x0003);
     host_call Scenario.delegate (mkPath 9 0x050C 0x0003);
     EvExceptionCheck; exception_line; EvExceptionDescribe;
     EvExceptionClear].
Proof.
  split; [vm_compute; discriminate |].
  apply (Read_exception_contained Scenario.fixed_endpoints
           (Scenario.host_always Jni.Throws) Scenario.delegate
           (mkPath 9 0x050C 0x0003) Scenario.busy).
  - vm_compute. discriminate.
  - left. reflexivity.
Defined.

(** A string from the host never comes back either: whenever no
    exception is pending, the copy is made and the references are given
    back, and then the run ends in undefined behaviour at the last log
    statement, which reads the released buffer. *)
Lemma Read_text_is_undefined (N : Z) (vm : Jni.JavaVM)
    (this : ContentAppAttributeDelegate) (p : ConcreteReadAttributePath)
    (e : Jni.JNIEnv) (s : Jni.JavaString) :
  N <= mEndpointId p ->
  Jni.pendingException e = false ->
  reply vm this p = Jni.Returns (Some s) ->
  result (Read N vm this p e) = Undefined /\
  final (Read N vm this p e) = e.
Proof.
  intros H He Hr. rewrite (Read_text N vm this p e s H He Hr).
  split; reflexivity.
Qed.

(** C4. The claim is that a text returned by the host comes back as an
    owned copy of its bytes, after the text object and its reference were
    released.  For endpoint 7, cluster 0x050C, attribute 0 and a host that
    returns "on", [Read] gets the UTF buffer, copies it, releases the
    buffer and deletes the local reference, and then passes the released
    buffer to the [%s] of its last log statement: the run ends in
    undefined behaviour before the copy is returned. *)
Example Read_text_reply :
  Read Scenario.fixed_endpoints
    (Scenario.host_always (Scenario.text "on")) Scenario.delegate
    (mkPath 7 0x050C 0x0000) Scenario.busy =
  mkRun Undefined Scenario.busy
    [EvGetEnvForCurrentThread; called_line (mkPath 7 0x050C 0x0000);
     host_call Scenario.delegate (mkPath 7 0x050C 0x0000);
     EvExceptionCheck; EvGetStringUTFChars (Jni.LocalRef 5);
     EvReleaseStringUTFChars (Jni.LocalRef 5) (Some 3%nat);
     EvDeleteLocalRef (Jni.LocalRef 5); response_line None].
Proof. reflexivity. Qed.

(** A [null] from the host never comes back: whenever no exception is
    pending, the run ends in undefined behaviour right after
    [GetStringUTFChars]. *)
Lemma Read_null_is_undefined (N : Z) (vm : Jni.JavaVM)
    (this : ContentAppAttributeDelegate) (p : ConcreteReadAttributePath)
    (e : Jni.JNIEnv) :
  N <= mEndpointId p ->
  Jni.pendingException e = false ->
  reply vm this p = Jni.Returns None ->
  result (Read N vm this p e) = Undefined.
Proof.
  intros H He Hr. rewrite (Read_null N vm this p e H He Hr). reflexivity.
Qed.

(** C5. The claim is that a [null] or empty text from the host is passed
    on as the empty string without failure.  For endpoint 6, cluster
    0x0506, attribute 1 and a host that returns [null], no exception is
    pending, so [Read] hands [NULL] to [GetStringUTFChars] and builds a
    [std::string] from the null pointer: the run does not return a value. *)
Example Read_null_reply :
  Read Scenario.fixed_endpoints
    (Scenario.host_always (Jni.Returns None)) Scenario.delegate
    (mkPath 6 0x0506 0x0001) Scenario.idle =
  mkRun Undefined Scenario.idle
    [EvGetEnvForCurrentThread; called_line (mkPath 6 0x0506 0x0001);
     host_call Scenario.delegate (mkPath 6 0x0506 0x0001);
     EvExceptionCheck; EvGetStringUTFChars Jni.NULL].
Proof. reflexivity. Qed.




(** C7, as stated, fails: with five fixed endpoints, endpoint 7 and a host
    that returns "on", [Read] emits two lines at progress level, not
    one. *)
Lemma Read_progress_lines_counterexample :
  List.length
    (log_lines_at Progress
       (trace (Read Scenario.fixed_endpoints
                 (Scenario.host_always (Scenario.text "on"))
                 Scenario.delegate (mkPath 7 0x050C 0x0000)
                 Scenario.idle))) = 2%nat /\
  List.length
    (log_lines_at Progress
       (trace (Read Scenario.fixed_endpoints
                 (Scenario.host_always (Scenario.text "on"))
                 Scenario.delegate (mkPath 7 0x050C 0x0000)
                 Scenario.idle))) <> 1%nat.
Proof. split; [reflexivity | vm_compute; discriminate]. Qed.

(** C7, amended. Every invocation that crosses the foreign boundary
    emits exactly one progress line naming the (endpoint, cluster,
    attribute) triple, as its first progress line; when the host returned
    a string and the exception check found nothing, the last log
    statement emits one more progress line, with the response format,
    and on every other run there is no further progress line. *)
Theorem Read_progress_lines (N : Z) (vm : Jni.JavaVM)
    (this : ContentAppAttributeDelegate) (p : ConcreteReadAttributePath)
    (e : Jni.JNIEnv) :
  N <= mEndpointId p ->
  exists rest,
    log_lines_at Progress (trace (Read N vm this p e)) =
      ChipLog Progress
        "ContentAppAttributeDelegate::Read being called for endpoint %d cluster %d attribute %d"
        [ArgInt (mEndpointId p); ArgInt (mClusterId p);
         ArgInt (mAttributeId p)] :: rest /\
    match reply vm this p, Jni.pendingException e with
    | Jni.Returns (Some _), false =>
        exists shown,
          rest =
            [ChipLog Progress
               "ContentAppAttributeDelegate::Read got response %s"
               [ArgText shown]]
    | _, _ => rest = []
    end.
Proof.
  intros H.
  destruct (reply vm this p) as [| v] eqn:Hr.
  - rewrite (Read_throws N vm this p e H Hr). eexists. split; reflexivity.
  - destruct (Jni.pendingException e) eqn:He.
    + rewrite (Read_pending N vm this p e v H He Hr). eexists.
      split; [reflexivity |]. destruct v; reflexivity.
    + destruct v as [s |].
      * rewrite (Read_text N vm this p e s H He Hr).
        eexists. split; [reflexivity |]. eexists. reflexivity.
      * rewrite (Read_null N vm this p e H He Hr). eexists.
        split; reflexivity.
Qed.

Lemma Read_progress_lines_witness :
  Scenario.fixed_endpoints <= mEndpointId (mkPath 7 0x050C 0x0000) /\
  exists rest,
    log_lines_at Progress
      (trace (Read Scenario.fixed_endpoints
                (Scenario.host_always (Scenario.text "on"))
                Scenario.delegate (mkPath 7 0x050C 0x0000)
                Scenario.idle)) =
      ChipLog Progress
        "ContentAppAttributeDelegate::Read being called for endpoint %d cluster %d attribute %d"
        [ArgInt 7; ArgInt 0x050C; ArgInt 0] :: rest /\
    exists shown,
      rest =
        [ChipLog Progress
           "ContentAppAttributeDelegate::Read got response %s"
           [ArgText shown]].
Proof.
  split; [vm_compute; discriminate |].
  apply (Read_progress_lines Scenario.fixed_endpoints
           (Scenario.host_always (Scenario.text "on")) Scenario.delegate
           (mkPath 7 0x050C 0x0000) Scenario.idle).
  vm_compute. discriminate.
Defined.

(** C9. For every path whose endpoint identifier is strictly less than
    the fixed endpoint count, [Read] emits no log line at all, at progress
    level or at error level. *)
Theorem Read_static_is_silent (N : Z) (vm : Jni.JavaVM)
    (this : ContentAppAttributeDelegate) (p : ConcreteReadAttributePath)
    (e : Jni.JNIEnv) :
  mEndpointId p < N ->
  log_lines (trace (Read N vm this p e)) = [] /\
  log_lines_at Progress (trace (Read N vm this p e)) = [] /\
  log_lines_at Error (trace (Read N vm this p e)) = [].
Proof.
  intros H. rewrite (Read_static N vm this p e H). repeat split.
Qed.

Lemma Read_static_is_silent_witness :
  mEndpointId (mkPath 4 0x0028 0x0000) < Scenario.fixed_endpoints /\
  log_lines
    (trace (Read Scenario.fixed_endpoints (Scenario.host_always Jni.Throws)
              Scenario.delegate (mkPath 4 0x0028 0x0000) Scenario.idle)) =
    [] /\
  log_lines_at Progress
    (trace (Read Scenario.fixed_endpoints (Scenario.host_always Jni.Throws)
              Scenario.delegate (mkPath 4 0x0028 0x0000) Scenario.idle)) =
    [] /\
  log_lines_at Error
    (trace (Read Scenario.fixed_endpoints (Scenario.host_always Jni.Throws)
              Scenario.delegate (mkPath 4 0x0028 0x0000) Scenario.idle)) =
    [].
Proof.
  split; [reflexivity |].
  apply (Read_static_is_silent Scenario.fixed_endpoints
           (Scenario.host_always Jni.Throws) Scenario.delegate
           (mkPath 4 0x0028 0x0000) Scenario.idle).
  reflexivity.
Defined.

(** C10. On the dynamic path, for a path whose endpoint and cluster
    identifiers are 16-bit and whose attribute identifier is 32-bit, the
    endpoint and cluster arguments handed to the host are the identifiers
    themselves and hence non-negative; the attribute argument is negative
    exactly when the attribute identifier has its high bit set. *)
Theorem Read_jint_signs (N : Z) (vm : Jni.JavaVM)
    (this : ContentAppAttributeDelegate) (p : ConcreteReadAttributePath)
    (e : Jni.JNIEnv) :
  N <= mEndpointId p ->
  well_typed p ->
  exists je jc ja,
    host_calls (trace (Read N vm this p e)) =
      [EvCallObjectMethod (mContentAppEndpointManager this)
         (mReadAttributeMethod this) [je; jc; ja]] /\
    je = mEndpointId p /\ 0 <= je /\
    jc = mClusterId p /\ 0 <= jc /\
    (ja < 0 <-> 2 ^ 31 <= mAttributeId p).
Proof.
  intros H (He & Hc & Ha).
  unfold EndpointId_bits, ClusterId_bits, AttributeId_bits in *.
  exists (Cxx.static_cast_jint (mEndpointId p)),
    (Cxx.static_cast_jint (mClusterId p)),
    (Cxx.static_cast_jint (mAttributeId p)).
  split; [apply Read_host_calls; exact H |].
  rewrite (static_cast_jint_small (mEndpointId p)) by lia.
  rewrite (static_cast_jint_small (mClusterId p)) by lia.
  repeat split; try lia.
  - intros Hneg.
    destruct (Z.lt_ge_cases (mAttributeId p) (2 ^ 31)) as [Hlow | Hhigh];
      [| exact Hhigh].
    rewrite static_cast_jint_small in Hneg by lia. lia.
  - intros Hhigh. rewrite static_cast_jint_high by lia. lia.
Qed.

Lemma Read_jint_signs_witness :
  Scenario.fixed_endpoints <= mEndpointId (mkPath 0xFFFF 0xFFFF 0xFFFD0000) /\
  well_typed (mkPath 0xFFFF 0xFFFF 0xFFFD0000) /\
  jargs (mkPath 0xFFFF 0xFFFF 0xFFFD0000) = [65535; 65535; -196608] /\
  exists je jc ja,
    host_calls
      (trace (Read Scenario.fixed_endpoints (Scenario.host_always Jni.Throws)
                Scenario.delegate (mkPath 0xFFFF 0xFFFF 0xFFFD0000)
                Scenario.idle)) =
      [EvCallObjectMethod (Jni.GlobalRef 1) 1%nat [je; jc; ja]] /\
    je = 0xFFFF /\ 0 <= je /\
    jc = 0xFFFF /\ 0 <= jc /\
    (ja < 0 <-> 2 ^ 31 <= 0xFFFD0000).
Proof.
  split; [vm_compute; discriminate |].
  split; [unfold well_typed; vm_compute; intuition discriminate |].
  split; [reflexivity |].
  apply (Read_jint_signs Scenario.fixed_endpoints
           (Scenario.host_always Jni.Throws) Scenario.delegate
           (mkPath 0xFFFF 0xFFFF 0xFFFD0000) Scenario.idle).
  - vm_compute. discriminate.
  - unfold well_typed. vm_compute. intuition discriminate.
Defined.

(** ** The claim about AppConfig.h *)

Lemma bindings_eq (u : Z) :
  AppConfig.bindings u =
  [ ("BUTTON_PORT"%string, AppConfig.DEVICE_DT_GET_NODELABEL "gpioc");
    ("BUTTON_PIN_1"%string, AppConfig.Int 2);
    ("BUTTON_PIN_3"%string, AppConfig.Int 3);
    ("BUTTON_PIN_4"%string, AppConfig.Int 1);
    ("BUTTON_PIN_2"%string, AppConfig.Int 0);
    ("SYSTEM_STATE_LED_PORT"%string, AppConfig.DEVICE_DT_GET_NODELABEL "gpiob");
    ("SYSTEM_STATE_LED_PIN"%string, AppConfig.Int 7);
    ("USE_RGB_PWM"%string, AppConfig.Int u);
    ("LIGHTING_PWM_SPEC_BLUE"%string, AppConfig.PWM_DT_SPEC_GET_ALIAS "pwm_led0") ]
  ++ (if u =? 0 then []
      else
        [ ("LIGHTING_PWM_SPEC_GREEN"%string,
           AppConfig.PWM_DT_SPEC_GET_ALIAS "pwm_led1");
          ("LIGHTING_PWM_SPEC_RED"%string,
           AppConfig.PWM_DT_SPEC_GET_ALIAS "pwm_led2") ]).
Proof.
  unfold AppConfig.bindings, AppConfig.AppConfig_h_with.
  cbn -[Z.eqb]. destruct (u =? 0); reflexivity.
Qed.

(** C8, as stated, fails: the four button pin numbers of the header are
    contiguous, they fill the range 0..3. *)
Lemma button_pins_counterexample :
  map snd (AppConfig.button_pins (AppConfig.preprocess AppConfig.AppConfig_h O [])) =
    [2; 3; 1; 0] /\
  AppConfig.contiguous
    (map snd (AppConfig.button_pins (AppConfig.preprocess AppConfig.AppConfig_h O []))) =
    true /\
  AppConfig.contiguous
    (map snd (AppConfig.button_pins (AppConfig.preprocess AppConfig.AppConfig_h O []))) <>
    false.
Proof. repeat split. vm_compute. discriminate. Qed.

(** C8, amended. Whatever value is written for [USE_RGB_PWM], the header
    defines exactly one system-state LED pin (pin 7, on [gpiob]), four
    button pins on the GPIO controller [gpioc] whose numbers, 2, 0, 3 and
    1 for buttons 1 to 4, are pairwise distinct and fill the contiguous
    range 0..3 without following the button order, and the primary
    lighting PWM channel [pwm_led0]; it is the only PWM channel when
    [USE_RGB_PWM] is 0, and any other value also binds the green channel
    [pwm_led1] and the red channel [pwm_led2]. *)
Theorem board_bindings (u : Z) :
  AppConfig.led_pins (AppConfig.bindings u) =
    [("SYSTEM_STATE_LED_PIN"%string, 7)] /\
  AppConfig.macro "SYSTEM_STATE_LED_PORT" (AppConfig.bindings u) =
    Some (AppConfig.DEVICE_DT_GET_NODELABEL "gpiob") /\
  AppConfig.macro "BUTTON_PORT" (AppConfig.bindings u) =
    Some (AppConfig.DEVICE_DT_GET_NODELABEL "gpioc") /\
  AppConfig.button_pins (AppConfig.bindings u) =
    [("BUTTON_PIN_1"%string, 2); ("BUTTON_PIN_3"%string, 3);
     ("BUTTON_PIN_4"%string, 1); ("BUTTON_PIN_2"%string, 0)] /\
  map (fun name => AppConfig.macro name (AppConfig.bindings u))
    ["BUTTON_PIN_1"%string; "BUTTON_PIN_2"%string; "BUTTON_PIN_3"%string;
     "BUTTON_PIN_4"%string] =
    [Some (AppConfig.Int 2); Some (AppConfig.Int 0); Some (AppConfig.Int 3);
     Some (AppConfig.Int 1)] /\
  NoDup (map snd (AppConfig.button_pins (AppConfig.bindings u))) /\
  AppConfig.contiguous
    (map snd (AppConfig.button_pins (AppConfig.bindings u))) = true /\
  AppConfig.pwm_channels (AppConfig.bindings u) =
    ("LIGHTING_PWM_SPEC_BLUE"%string, "pwm_led0"%string) ::
    (if u =? 0 then []
     else [("LIGHTING_PWM_SPEC_GREEN"%string, "pwm_led1"%string);
           ("LIGHTING_PWM_SPEC_RED"%string, "pwm_led2"%string)]).
Proof.
  rewrite bindings_eq.
  destruct (u =? 0); cbn; repeat split;
    repeat (constructor; [cbn; intuition discriminate |]); constructor.
Qed.

(** ** End-to-end scenarios, with five fixed endpoints *)

(** Static short-circuit: the host is never invoked. *)
Example scenario_static :
  Read 5 (Scenario.host_always (Scenario.text "on")) Scenario.delegate
    (mkPath 3 0x0006 0x0000) Scenario.idle =
  mkRun (Value (Cxx.bytes_of "")) Scenario.idle [].
Proof. reflexivity. Qed.

(** Dynamic failure: the empty string, one error line, nothing pending. *)
Example scenario_failure :
  Read 5 (Scenario.host_always Jni.Throws) Scenario.delegate
    (mkPath 9 0x050C 0x0003) Scenario.idle =
  mkRun (Value (Cxx.bytes_of "")) Scenario.idle
    [EvGetEnvForCurrentThread; called_line (mkPath 9 0x050C 0x0003);
     host_call Scenario.delegate (mkPath 9 0x050C 0x0003);
     EvExceptionCheck; exception_line; EvExceptionDescribe;
     EvExceptionClear].
Proof. reflexivity. Qed.

(** Dynamic empty: an empty string from the host goes the way of every
    string; the run ends at the last log statement. *)
Example scenario_empty :
  Read 5 (Scenario.host_always (Scenario.text "")) Scenario.delegate
    (mkPath 6 0x0506 0x0001) Scenario.idle =
  mkRun Undefined Scenario.idle
    [EvGetEnvForCurrentThread; called_line (mkPath 6 0x0506 0x0001);
     host_call Scenario.delegate (mkPath 6 0x0506 0x0001);
     EvExceptionCheck; EvGetStringUTFChars (Jni.LocalRef 1);
     EvReleaseStringUTFChars (Jni.LocalRef 1) (Some 1%nat);
     EvDeleteLocalRef (Jni.LocalRef 1); response_line None].
Proof. reflexivity. Qed.

(** Boundary: endpoint 5 goes to the host, endpoint 4 does not. *)
Example scenario_boundary :
  host_calls
    (trace (Read 5 (Scenario.host_always (Scenario.text "Example"))
              Scenario.delegate (mkPath 5 0x0028 0x0000) Scenario.idle)) =
    [EvCallObjectMethod (Jni.GlobalRef 1) 1%nat [5; 0x0028; 0]] /\
  Read 5 (Scenario.host_always (Scenario.text "Example"))
    Scenario.delegate (mkPath 4 0x0028 0x0000) Scenario.idle =
    mkRun (Value (Cxx.bytes_of "")) Scenario.idle [].
Proof. split; reflexivity. Qed.

(** High-bit attribute: a host that throws on everything but the argument
    whose unsigned reading is 0xFFFD0000 does not throw. *)
Example scenario_high_bit :
  log_lines_at Error
    (trace (Read 5
              (Scenario.host_expecting [10; 0x050B; -196608]
                 (Scenario.text "ok"))
              Scenario.delegate (mkPath 10 0x050B 0xFFFD0000)
              Scenario.idle)) = [] /\
  Cxx.as_uint32 (-196608) = 0xFFFD0000.
Proof. split; reflexivity. Qed.

(** * Further properties of [Read] *)

(** Entered with no exception pending, [Read] hands the JNI environment
    back exactly as it got it, whatever the host does. *)
Lemma Read_restores (N : Z) (vm : Jni.JavaVM)
    (this : ContentAppAttributeDelegate) (p : ConcreteReadAttributePath)
    (e : Jni.JNIEnv) :
  Jni.pendingException e = false ->
  final (Read N vm this p e) = e.
Proof.
  intros He.
  destruct (Z.lt_ge_cases (mEndpointId p) N) as [Hlt | Hge].
  - rewrite (Read_static N vm this p e Hlt). reflexivity.
  - destruct (reply vm this p) as [| [s |]] eqn:Hr.
    + rewrite (Read_throws N vm this p e Hge Hr).
      destruct e as [refs bufs pending]. cbn in *. subst pending.
      reflexivity.
    + rewrite (Read_text N vm this p e s Hge He Hr). reflexivity.
    + rewrite (Read_null N vm this p e Hge He Hr). reflexivity.
Qed.




Lemma static_cast_jint_inj (x y : Z) :
  0 <= x < 2 ^ 32 -> 0 <= y < 2 ^ 32 ->
  Cxx.static_cast_jint x = Cxx.static_cast_jint y -> x = y.
Proof.
  intros Hx Hy H.
  rewrite <- (static_cast_jint_unsigned x Hx).
  rewrite <- (static_cast_jint_unsigned y Hy).
  rewrite H. reflexivity.
Qed.

(** X4. The conversion to [jint] conflates no two paths: paths with
    identifiers below 2^32 that differ in the endpoint, the cluster or
    the attribute reach the host as different argument triples. *)
Theorem jargs_distinct (p q : ConcreteReadAttributePath) :
  fits_uint32 p -> fits_uint32 q ->
  p <> q ->
  jargs p <> jargs q.
Proof.
  intros (Hpe & Hpc & Hpa) (Hqe & Hqc & Hqa) Hne Heq.
  apply Hne. unfold jargs in Heq.
  injection Heq as He Hc Ha.
  apply static_cast_jint_inj in He; [| assumption | assumption].
  apply static_cast_jint_inj in Hc; [| assumption | assumption].
  apply static_cast_jint_inj in Ha; [| assumption | assumption].
  destruct p as [pe pc pa], q as [qe qc qa]. cbn in *. congruence.
Qed.

Lemma jargs_distinct_witness :
  fits_uint32 (mkPath 7 0x050C 0x7FFFFFFF) /\
  fits_uint32 (mkPath 7 0x050C 0x80000000) /\
  mkPath 7 0x050C 0x7FFFFFFF <> mkPath 7 0x050C 0x80000000 /\
  jargs (mkPath 7 0x050C 0x7FFFFFFF) <> jargs (mkPath 7 0x050C 0x80000000).
Proof.
  assert (Hp : fits_uint32 (mkPath 7 0x050C 0x7FFFFFFF))
    by (unfold fits_uint32; vm_compute; intuition discriminate).
  assert (Hq : fits_uint32 (mkPath 7 0x050C 0x80000000))
    by (unfold fits_uint32; vm_compute; intuition discriminate).
  assert (Hne : mkPath 7 0x050C 0x7FFFFFFF <> mkPath 7 0x050C 0x80000000)
    by discriminate.
  split; [exact Hp |]. split; [exact Hq |]. split; [exact Hne |].
  exact (jargs_distinct _ _ Hp Hq Hne).
Defined.

(** X5. [Read] treats a run as failed exactly when it is on the dynamic
    path and the host threw or an exception was pending: precisely then
    the error line is logged and [ExceptionDescribe] and [ExceptionClear]
    are called; on every other run none of the three occurs. *)
Theorem Read_error_handling_iff (N : Z) (vm : Jni.JavaVM)
    (this : ContentAppAttributeDelegate) (p : ConcreteReadAttributePath)
    (e : Jni.JNIEnv) :
  (In exception_line (trace (Read N vm this p e)) <->
   N <= mEndpointId p /\
   (reply vm this p = Jni.Throws \/ Jni.pendingException e = true)) /\
  (In EvExceptionDescribe (trace (Read N vm this p e)) <->
   In exception_line (trace (Read N vm this p e))) /\
  (In EvExceptionClear (trace (Read N vm this p e)) <->
   In exception_line (trace (Read N vm this p e))).
Proof.
  destruct (Z.lt_ge_cases (mEndpointId p) N) as [Hlt | Hge].
  - rewrite (Read_static N vm this p e Hlt). cbn. intuition lia.
  - destruct (reply vm this p) as [| v] eqn:Hr.
    + rewrite (Read_throws N vm this p e Hge Hr).
      unfold called_line, host_call, exception_line. cbn. intuition.
    + destruct (Jni.pendingException e) eqn:He.
      * rewrite (Read_pending N vm this p e v Hge He Hr).
        unfold called_line, host_call, exception_line. cbn. intuition.
      * destruct v as [s |].
        -- rewrite (Read_text N vm this p e s Hge He Hr).
           unfold called_line, host_call, exception_line, response_line.
           cbn. intuition discriminate.
        -- rewrite (Read_null N vm this p e Hge He Hr).
           unfold called_line, host_call, exception_line.
           cbn. intuition discriminate.
Qed.

(** * A further property of AppConfig.h *)

Lemma macro_app (name : string) (m1 m2 : AppConfig.Macros) :
  AppConfig.macro name (m1 ++ m2) =
  match AppConfig.macro name m1 with
  | Some b => Some b
  | None => AppConfig.macro name m2
  end.
Proof.
  induction m1 as [| [n b] m1 IH]; cbn [app AppConfig.macro].
  - reflexivity.
  - destruct (String.eqb n name); [reflexivity | exact IH].
Qed.

(** X8. The value written for [USE_RGB_PWM] changes nothing but the
    macro itself and the green and red PWM specifications: every other
    name expands to the same thing, or stays undefined, under any two
    values. *)
Theorem toggle_frame (u v : Z) (name : string) :
  name <> "USE_RGB_PWM"%string ->
  name <> "LIGHTING_PWM_SPEC_GREEN"%string ->
  name <> "LIGHTING_PWM_SPEC_RED"%string ->
  AppConfig.macro name (AppConfig.bindings u) =
  AppConfig.macro name (AppConfig.bindings v).
Proof.
  intros Hflag Hgreen Hred.
  assert (Hrgb : forall w,
    AppConfig.macro name
      (if w =? 0 then []
       else
         [ ("LIGHTING_PWM_SPEC_GREEN"%string,
            AppConfig.PWM_DT_SPEC_GET_ALIAS "pwm_led1");
           ("LIGHTING_PWM_SPEC_RED"%string,
            AppConfig.PWM_DT_SPEC_GET_ALIAS "pwm_led2") ]) = None).
  { intros w. destruct (w =? 0); cbn [AppConfig.macro]; [reflexivity |].
    destruct (String.eqb_spec "LIGHTING_PWM_SPEC_GREEN" name) as [E | _];
      [symmetry in E; contradiction |].
    destruct (String.eqb_spec "LIGHTING_PWM_SPEC_RED" name) as [E | _];
      [symmetry in E; contradiction |].
    reflexivity. }
  rewrite !bindings_eq, !macro_app, !Hrgb.
  cbn [AppConfig.macro].
  destruct (String.eqb_spec "USE_RGB_PWM" name) as [E | _];
    [symmetry in E; contradiction |].
  reflexivity.
Qed.

Lemma toggle_frame_witness :
  "BUTTON_PIN_1"%string <> "USE_RGB_PWM"%string /\
  "BUTTON_PIN_1"%string <> "LIGHTING_PWM_SPEC_GREEN"%string /\
  "BUTTON_PIN_1"%string <> "LIGHTING_PWM_SPEC_RED"%string /\
  AppConfig.macro "BUTTON_PIN_1" (AppConfig.bindings 0) =
  AppConfig.macro "BUTTON_PIN_1" (AppConfig.bindings 1).
Proof.
  assert (H1 : "BUTTON_PIN_1"%string <> "USE_RGB_PWM"%string)
    by discriminate.
  assert (H2 : "BUTTON_PIN_1"%string <> "LIGHTING_PWM_SPEC_GREEN"%string)
    by discriminate.
  assert (H3 : "BUTTON_PIN_1"%string <> "LIGHTING_PWM_SPEC_RED"%string)
    by discriminate.
  split; [exact H1 |]. split; [exact H2 |]. split; [exact H3 |].
  exact (toggle_frame 0 1 "BUTTON_PIN_1" H1 H2 H3).
Defined.
